(** * LogView: the client-side session logger of golmi

    Shallow embedding of [app/static/js/view/LogView.js].

    The class keeps a [data] object holding the log array under the key
    ["log"] next to auxiliary entries, a start time, the logging mode and
    the three most recently received substates.  Its four socket handlers
    and its public methods are written below as computations in a small
    monad that threads the instance ([this]), may complete abruptly (a
    JavaScript [TypeError]) and collects what is sent to the console and
    to [fetch]. *)

From stdpp Require Import base option list strings gmap fin_maps.
From stdpp Require Import sorting.
From Stdlib Require Import ZArith Lia.

Local Open Scope string_scope.
Local Open Scope list_scope.
Local Open Scope Z_scope.
Local Set Warnings "-register-all".

(** ** JavaScript values

    Payloads are JSON-friendly values.  [VUndefined] is the result of
    reading a property that does not exist.  An object is the list of its
    own properties in insertion order, which is the order [Object.keys]
    enumerates them in. *)

Inductive value : Type :=
  | VUndefined
  | VNull
  | VBool (b : bool)
  | VNum (n : Z)
  | VStr (s : string)
  | VArr (items : list value)
  | VObj (props : list (string * value)).

(** The own property [key] of a property list. *)
Fixpoint own_property (key : string) (props : list (string * value)) : option value :=
  match props with
  | [] => None
  | (k, v) :: rest => if String.eqb k key then Some v else own_property key rest
  end.

(** ** The instance *)

Record LogView : Type := mkLogView {
  data : gmap string value;
  logFullState : bool;
  startTime : option Z;
  currentObjs : value;
  currentGrippers : value;
  currentConfig : value
}.

(** ** The monad of method bodies *)

Inductive completion (A : Type) : Type :=
  | Normal (a : A)
  | Thrown (err : string).
Arguments Normal {A} a.
Arguments Thrown {A} err.

Inductive effect : Type :=
  | console_log (msg : string)
  | fetch_POST (endpoint content_type : string) (body : gmap string value).

Record run (A : Type) : Type := Run {
  completed : completion A;
  this_after : LogView;
  emitted : list effect
}.
Arguments Run {A} completed this_after emitted.
Arguments completed {A} r.
Arguments this_after {A} r.
Arguments emitted {A} r.

Definition JS (A : Type) : Type := LogView → run A.

Global Instance JS_ret : MRet JS := λ A a this, Run (Normal a) this [].

Global Instance JS_bind : MBind JS := λ A B f m this,
  match m this with
  | Run (Normal a) this' out =>
      match f a this' with
      | Run c this'' out' => Run c this'' (out ++ out')
      end
  | Run (Thrown err) this' out => Run (Thrown err) this' out
  end.

Definition get_this : JS LogView := λ this, Run (Normal this) this [].
Definition throw {A : Type} (err : string) : JS A := λ this, Run (Thrown err) this [].
Definition emit (e : effect) : JS unit := λ this, Run (Normal ()) this [e].

Definition set_data (d : gmap string value) : JS unit := λ this,
  Run (Normal ())
      (mkLogView d (logFullState this) (startTime this)
                 (currentObjs this) (currentGrippers this) (currentConfig this)) [].
Definition set_startTime (t : option Z) : JS unit := λ this,
  Run (Normal ())
      (mkLogView (data this) (logFullState this) t
                 (currentObjs this) (currentGrippers this) (currentConfig this)) [].
Definition set_currentObjs (v : value) : JS unit := λ this,
  Run (Normal ())
      (mkLogView (data this) (logFullState this) (startTime this)
                 v (currentGrippers this) (currentConfig this)) [].
Definition set_currentGrippers (v : value) : JS unit := λ this,
  Run (Normal ())
      (mkLogView (data this) (logFullState this) (startTime this)
                 (currentObjs this) v (currentConfig this)) [].
Definition set_currentConfig (v : value) : JS unit := λ this,
  Run (Normal ())
      (mkLogView (data this) (logFullState this) (startTime this)
                 (currentObjs this) (currentGrippers this) v) [].

(** ** The language primitives the class uses *)

(** [o[key]] for the two keys the class reads from a payload, ["objs"] and
    ["grippers"]: reading a property of [undefined] or [null] throws;
    numbers, booleans, strings and arrays have no property of these
    names. *)
Definition get_property (o : value) (key : string) : JS value :=
  match o with
  | VUndefined | VNull => throw "TypeError"
  | VObj props => mret (default VUndefined (own_property key props))
  | _ => mret VUndefined
  end.

(** [Object.keys(v).length]: [Object.keys] throws on [undefined] and
    [null], lists the indices of a string or an array, and finds no own
    enumerable property in a number or a boolean. *)
Definition Object_keys_length (v : value) : JS nat :=
  match v with
  | VUndefined | VNull => throw "TypeError"
  | VBool _ | VNum _ => mret 0%nat
  | VStr s => mret (String.length s)
  | VArr items => mret (length items)
  | VObj props => mret (length props)
  end.

(** ** The class *)

(** [constructor(modelSocket, logFullState=true)]: the fields before the
    handlers are registered.  [this.startTime;] leaves the start time
    [undefined], here [None]. *)
Definition new_LogView (logFullState : bool) : LogView :=
  mkLogView {[ "log" := VArr [] ]} logFullState None (VObj []) (VObj []) (VObj []).

(** [_getFullState()] *)
Definition _getFullState : JS value :=
  this ← get_this;
  mret (VObj [("objs", currentObjs this);
              ("grippers", currentGrippers this);
              ("config", currentConfig this)]).

(** [_addSnapshot(timestamp, data)]: [this.data["log"].push([timestamp, data])] *)
Definition _addSnapshot (timestamp : Z) (d : value) : JS unit :=
  this ← get_this;
  match data this !! "log" with
  | Some (VArr entries) =>
      set_data (<["log" := VArr (entries ++ [VArr [VNum timestamp; d]])]> (data this))
  | _ => throw "TypeError"
  end.

(** The start time as [if (this.startTime)] sees it: [undefined] and [0]
    are falsy; otherwise the number is returned for the subtraction. *)
Definition truthy_startTime (this : LogView) : option Z :=
  match startTime this with
  | Some t => if t =? 0 then None else Some t
  | None => None
  end.

(** The handlers take the value [Date.now()] returns during the reaction
    as their first argument. *)

(** [socket.on("update_state", (state) => ...)].  The inner [None] stands
    for the early [return]. *)
Definition on_update_state (Date_now : Z) (state : value) : JS unit :=
  this ← get_this;
  timeOffset ←
    match truthy_startTime this with
    | None =>
        objs ← get_property state "objs";
        n_objs ← Object_keys_length objs;
        empty ←
          (if (n_objs =? 0)%nat then
             grippers ← get_property state "grippers";
             n_grippers ← Object_keys_length grippers;
             mret (n_grippers =? 0)%nat
           else mret false);
        if (empty : bool) then mret None
        else set_startTime (Some Date_now);; mret (Some 0)
    | Some t => mret (Some (Date_now - t))
    end;
  match timeOffset with
  | None => mret ()
  | Some timeOffset =>
      if logFullState this then
        objs ← get_property state "objs";
        set_currentObjs objs;;
        grippers ← get_property state "grippers";
        set_currentGrippers grippers;;
        full ← _getFullState;
        _addSnapshot timeOffset full
      else _addSnapshot timeOffset state
  end.

(** [socket.on("update_grippers", (grippers) => ...)] *)
Definition on_update_grippers (Date_now : Z) (grippers : value) : JS unit :=
  this ← get_this;
  match truthy_startTime this with
  | Some t =>
      let timeOffset := Date_now - t in
      if logFullState this then
        set_currentGrippers grippers;;
        full ← _getFullState;
        _addSnapshot timeOffset full
      else _addSnapshot timeOffset (VObj [("gripper", grippers)])
  | None => mret ()
  end.

(** [socket.on("update_objs", (objs) => ...)] *)
Definition on_update_objs (Date_now : Z) (objs : value) : JS unit :=
  this ← get_this;
  match truthy_startTime this with
  | Some t =>
      let timeOffset := Date_now - t in
      if logFullState this then
        set_currentObjs objs;;
        full ← _getFullState;
        _addSnapshot timeOffset full
      else _addSnapshot timeOffset (VObj [("objs", objs)])
  | None => mret ()
  end.

(** [socket.on("update_config", (config) => ...)] *)
Definition on_update_config (Date_now : Z) (config : value) : JS unit :=
  this ← get_this;
  match truthy_startTime this with
  | Some t =>
      let timeOffset := Date_now - t in
      if logFullState this then
        set_currentConfig config;;
        full ← _getFullState;
        _addSnapshot timeOffset full
      else _addSnapshot timeOffset (VObj [("config", config)])
  | None =>
      if logFullState this then set_currentConfig config
      else _addSnapshot (-1) (VObj [("config", config)])
  end.

(** [_initSocketEvents()]: the handlers registered on the socket, by event
    name. *)
Definition _initSocketEvents : list (string * (Z → value → JS unit)) :=
  [("update_state", on_update_state);
   ("update_grippers", on_update_grippers);
   ("update_objs", on_update_objs);
   ("update_config", on_update_config)].

(** [addData(key, data)], for a string [key].  Assigning to ["__proto__"]
    goes to the prototype setter and creates no own property.  The method
    has no [return] statement: a call evaluates to [undefined]. *)
Definition addData (key : string) (d : value) : JS value :=
  (if String.eqb key "log" then
     emit (console_log "Error at LogView: Cannot manually add data with reserved key 'log'.")
   else if String.eqb key "__proto__" then mret ()
   else
     this ← get_this;
     set_data (<[key := d]> (data this)));;
  mret VUndefined.

(** [sendData(endpoint="/save_log")]: the request handed to [fetch], whose
    body is the [data] object (serialised by [JSON.stringify]).  The
    response is handled later, in a callback that only writes to the
    console. *)
Definition sendData (endpoint : string) : JS value :=
  this ← get_this;
  emit (fetch_POST endpoint "application/json;charset=utf-8" (data this));;
  mret VUndefined.

(** [clear()] *)
Definition clear : JS value :=
  set_data {[ "log" := VArr [] ]};;
  set_startTime None;;
  set_currentObjs (VObj []);;
  set_currentGrippers (VObj []);;
  set_currentConfig (VObj []);;
  mret VUndefined.

(** ** Events arriving on the socket *)

Inductive event : Type :=
  | update_state (state : value)
  | update_grippers (grippers : value)
  | update_objs (objs : value)
  | update_config (config : value).

Definition event_name (e : event) : string :=
  match e with
  | update_state _ => "update_state"
  | update_grippers _ => "update_grippers"
  | update_objs _ => "update_objs"
  | update_config _ => "update_config"
  end.

Definition event_payload (e : event) : value :=
  match e with
  | update_state v | update_grippers v | update_objs v | update_config v => v
  end.

Fixpoint registered (name : string) (table : list (string * (Z → value → JS unit)))
  : option (Z → value → JS unit) :=
  match table with
  | [] => None
  | (n, h) :: rest => if String.eqb n name then Some h else registered name rest
  end.

(** The socket delivers an event at wall-clock time [Date_now]: the
    handler registered under the event's name runs on its payload. *)
Definition deliver (Date_now : Z) (e : event) : JS unit :=
  match registered (event_name e) _initSocketEvents with
  | Some handler => handler Date_now (event_payload e)
  | None => mret ()
  end.

(** The instance after one reaction; an exception leaves the handler and
    the instance stays as the handler left it. *)
Definition react (this : LogView) (ev : Z * event) : LogView :=
  this_after (deliver ev.1 ev.2 this).

Definition process (this : LogView) (evs : list (Z * event)) : LogView :=
  fold_left react evs this.

(** The log array, when [data["log"]] is one. *)
Definition log_entries (this : LogView) : option (list value) :=
  match data this !! "log" with
  | Some (VArr entries) => Some entries
  | _ => None
  end.

(** A log entry [[timestamp, data]]. *)
Definition snapshot (timestamp : Z) (d : value) : value :=
  VArr [VNum timestamp; d].

(** ** What the specification calls things *)

(** The session clock is unset while no start time has been assigned. *)
Definition clock_unset (this : LogView) : Prop := startTime this = None.

(** The session clock was set at wall-clock time [t0].  [Date.now()] counts
    milliseconds since the epoch, so a start time is never the epoch
    instant [0] itself. *)
Definition clock_set_at (t0 : Z) (this : LogView) : Prop :=
  startTime this = Some t0 ∧ t0 ≠ 0.

(** An auxiliary entry is an entry of [data] under a key other than the
    reserved ["log"]. *)
Definition same_auxiliary_data (this this' : LogView) : Prop :=
  ∀ key : string, key ≠ "log" → data this' !! key = data this !! key.

(** A full-state payload of the documented shape
    [{objs: Mapping, grippers: Mapping}]. *)
Definition full_state_payload (state : value) : bool :=
  match state with
  | VObj props =>
      match own_property "objs" props, own_property "grippers" props with
      | Some (VObj _), Some (VObj _) => true
      | _, _ => false
      end
  | _ => false
  end.

Definition is_empty_mapping (v : option value) : bool :=
  match v with
  | Some (VObj []) => true
  | _ => false
  end.

(** Both [objs] and [grippers] of the payload are empty mappings. *)
Definition both_empty (state : value) : bool :=
  match state with
  | VObj props =>
      is_empty_mapping (own_property "objs" props)
      && is_empty_mapping (own_property "grippers" props)
  | _ => false
  end.

Definition well_formed (e : event) : bool :=
  match e with
  | update_state state => full_state_payload state
  | _ => true
  end.

(** Whether an event qualifies for recording, by the rules of the
    specification: [started] tells whether the session clock is set when
    the event arrives. *)
Definition qualifies (fullState started : bool) (e : event) : bool :=
  match e with
  | update_state state => negb (negb started && both_empty state)
  | update_grippers _ | update_objs _ => started
  | update_config _ => negb (negb started && fullState)
  end.

(** Whether the session clock is set after the event: a full-state event
    that is not skipped starts the session. *)
Definition starts (started : bool) (e : event) : bool :=
  match e with
  | update_state state => started || negb (both_empty state)
  | _ => started
  end.

(** The number of events of a sequence that qualify for recording. *)
Fixpoint qualifying_events (fullState started : bool) (evs : list (Z * event)) : nat :=
  match evs with
  | [] => 0
  | (_, e) :: rest =>
      (if qualifies fullState started e then 1 else 0)
      + qualifying_events fullState (starts started e) rest
  end%nat.

(** The clock as the specification tracks it, against the instance. *)
Definition agrees (started : bool) (this : LogView) : Prop :=
  if started then ∃ t0, clock_set_at t0 this else clock_unset this.

(** A sequence of events the logger is documented to receive: full-state
    payloads of the shape [{objs: Mapping, grippers: Mapping}], each event
    arriving at a wall-clock time other than the epoch instant. *)
Definition admissible (ev : Z * event) : bool :=
  negb (ev.1 =? 0) && well_formed ev.2.

Definition is_config_update (e : event) : bool :=
  match e with
  | update_config _ => true
  | _ => false
  end.

(** ** Calls on an instance other than [clear] *)

Inductive call : Type :=
  | arrives (Date_now : Z) (e : event)
  | calls_addData (key : string) (d : value)
  | calls_sendData (endpoint : string).

Definition perform (this : LogView) (c : call) : LogView :=
  match c with
  | arrives Date_now e => react this (Date_now, e)
  | calls_addData key d => this_after (addData key d this)
  | calls_sendData endpoint => this_after (sendData endpoint this)
  end.

Definition perform_all (this : LogView) (cs : list call) : LogView :=
  fold_left perform cs this.


(** ** Sample payloads and sessions *)

(** [{objs: {a: 1}, grippers: {}}] *)
Definition state_a : value :=
  VObj [("objs", VObj [("a", VNum 1)]); ("grippers", VObj [])].

(** [{objs: {}, grippers: {}}] *)
Definition state_empty : value :=
  VObj [("objs", VObj []); ("grippers", VObj [])].

(** [{move_step: 1}] *)
Definition config_a : value := VObj [("move_step", VNum 1)].

(** [{g1: {x: 3, y: 4}}] *)
Definition grippers_a : value :=
  VObj [("g1", VObj [("x", VNum 3); ("y", VNum 4)])].

(** A session: an empty handshake state, a config, a gripper update that
    comes too early, the first real state, then two gripper updates 50 ms
    apart and an object update. *)
Definition session_a : list (Z * event) :=
  [(1700000000000, update_state state_empty);
   (1700000000010, update_config config_a);
   (1700000000020, update_grippers grippers_a);
   (1700000000030, update_state state_a);
   (1700000000080, update_grippers grippers_a);
   (1700000000130, update_grippers grippers_a);
   (1700000000140, update_objs (VObj []))].

(** The instance once [state_a] has started the session, in each mode. *)
Definition started_full : LogView :=
  react (new_LogView true) (1700000000030, update_state state_a).

Definition started_delta : LogView :=
  react (new_LogView false) (1700000000030, update_state state_a).

(** ** The rest of the class, and notions to speak about it *)


(** Values in which [Object.keys] finds no key. *)
Definition no_keys (v : value) : bool :=
  match v with
  | VBool _ | VNum _ | VStr EmptyString | VArr [] | VObj [] => true
  | _ => false
  end.

(** What a handler hands to [_addSnapshot] when [logFullState] is false. *)
Definition delta_payload (e : event) : value :=
  match e with
  | update_state state => state
  | update_grippers grippers => VObj [("gripper", grippers)]
  | update_objs objs => VObj [("objs", objs)]
  | update_config config => VObj [("config", config)]
  end.

(** The object [_getFullState()] builds from an instance. *)
Definition full_state_of (this : LogView) : value :=
  VObj [("objs", currentObjs this);
        ("grippers", currentGrippers this);
        ("config", currentConfig this)].

(** The timestamp of a log entry [[timestamp, data]]. *)
Definition timestamp (entry : value) : option Z :=
  match entry with
  | VArr [VNum t; _] => Some t
  | _ => None
  end.

(** The instance with another start time. *)
Definition with_startTime (t : option Z) (this : LogView) : LogView :=
  mkLogView (data this) (logFullState this) t
            (currentObjs this) (currentGrippers this) (currentConfig this).

(** The instance with another [data] object. *)
Definition with_data (d : gmap string value) (this : LogView) : LogView :=
  mkLogView d (logFullState this) (startTime this)
            (currentObjs this) (currentGrippers this) (currentConfig this).

(** ** Symbolic execution of method bodies *)

(** Unfolds a method body on an instance given by its fields and follows
    the branches that the hypotheses decide. *)
Ltac run_js :=
  cbv [react deliver registered _initSocketEvents event_name event_payload
       String.eqb Ascii.eqb Bool.eqb fst snd from_option id
       on_update_state on_update_grippers on_update_objs on_update_config
       _addSnapshot addData sendData clear truthy_startTime _getFullState
       get_property Object_keys_length set_data set_startTime set_currentObjs
       set_currentGrippers set_currentConfig emit throw get_this
       mbind JS_bind mret JS_ret
       data logFullState startTime currentObjs currentGrippers currentConfig
       completed this_after emitted];
  repeat first
    [ progress cbn [app length String.length Nat.eqb]
    | match goal with
      | H : ?x = _ |- context [?x] => progress (rewrite H; cbv beta iota)
      end ].

Lemma log_entries_data this entries :
  log_entries this = Some entries → data this !! "log" = Some (VArr entries).
Proof.
  unfold log_entries. destruct (data this !! "log") as [[]|]; congruence.
Qed.

Lemma data_log_entries this entries :
  data this !! "log" = Some (VArr entries) → log_entries this = Some entries.
Proof. unfold log_entries. by intros ->. Qed.

Lemma log_entries_pushed d full st co cg cc entries :
  log_entries (mkLogView (<["log" := VArr entries]> d) full st co cg cc) = Some entries.
Proof. unfold log_entries; cbn [data]. by rewrite lookup_insert_eq. Qed.

Lemma full_state_payload_inv state :
  full_state_payload state = true →
  ∃ props objs grippers, state = VObj props
    ∧ own_property "objs" props = Some (VObj objs)
    ∧ own_property "grippers" props = Some (VObj grippers).
Proof.
  destruct state as [| | | | | |props]; try discriminate. cbn.
  destruct (own_property "objs" props) as [[| | | | | |objs]|] eqn:Hobjs;
    try discriminate.
  destruct (own_property "grippers" props) as [[| | | | | |grippers]|] eqn:Hgrippers;
    try discriminate.
  intros _. by exists props, objs, grippers.
Qed.

(** One reaction, against the specification's bookkeeping: the mode is
    kept, the clock evolves as [starts] says and the log grows by one
    entry exactly when the event qualifies. *)
Lemma react_counts full started this entries now e :
  logFullState this = full →
  agrees started this →
  log_entries this = Some entries →
  well_formed e = true →
  now ≠ 0 →
  logFullState (react this (now, e)) = full
  ∧ agrees (starts started e) (react this (now, e))
  ∧ ∃ entries', log_entries (react this (now, e)) = Some entries'
      ∧ length entries' = (length entries + if qualifies full started e then 1 else 0)%nat.
Proof.
  intros Hfull Hclock Hlog%log_entries_data Hwf Hnow.
  destruct this as [d full' st co cg cc]; cbn [data logFullState] in *; subst full'.
  assert (Hshape : ∀ state, e = update_state state →
            ∃ props objs grippers, state = VObj props
              ∧ own_property "objs" props = Some (VObj objs)
              ∧ own_property "grippers" props = Some (VObj grippers)).
  { intros state ->. by apply full_state_payload_inv. }
  clear Hwf.
  destruct started; cbn [agrees] in Hclock.
  - destruct Hclock as (t0 & Hst & Ht0). cbn [startTime] in Hst. subst st.
    pose proof (proj2 (Z.eqb_neq t0 0) Ht0) as Hfalsy.
    destruct e as [state|g|o|c];
      [destruct (Hshape state eq_refl)
         as (props & objs & grippers & -> & Hobjs & Hgrippers)| ..];
      clear Hshape; destruct full; run_js.
    all: split; [reflexivity|]; split; [by exists t0|].
    all: eexists; split; [apply log_entries_pushed|].
    all: rewrite length_app; cbn [qualifies negb andb length]; lia.
  - unfold clock_unset in Hclock. cbn [startTime] in Hclock. subst st.
    destruct e as [state|g|o|c];
      [destruct (Hshape state eq_refl)
         as (props & objs & grippers & -> & Hobjs & Hgrippers)| ..];
      clear Hshape.
    + destruct objs as [|? ?], grippers as [|? ?], full; run_js.
      all: split; [reflexivity|].
      all: cbn [starts qualifies both_empty]; rewrite Hobjs, Hgrippers;
        cbn [is_empty_mapping andb orb negb agrees].
      all: split; [first [reflexivity | by exists now]|].
      all: first [ exists entries; split; [by apply data_log_entries | lia]
                 | eexists; split;
                   [apply log_entries_pushed | rewrite length_app; cbn [length]; lia] ].
    + destruct full; run_js; cbn [starts qualifies agrees].
      all: split; [reflexivity|]; split; [reflexivity|].
      all: exists entries; split; [by apply data_log_entries | lia].
    + destruct full; run_js; cbn [starts qualifies agrees].
      all: split; [reflexivity|]; split; [reflexivity|].
      all: exists entries; split; [by apply data_log_entries | lia].
    + destruct full; run_js; cbn [starts qualifies agrees negb andb].
      all: split; [reflexivity|]; split; [reflexivity|].
      * exists entries; split; [by apply data_log_entries | lia].
      * eexists; split;
          [apply log_entries_pushed | rewrite length_app; cbn [length]; lia].
Qed.

Lemma process_counts evs : ∀ full started this entries,
  logFullState this = full →
  agrees started this →
  log_entries this = Some entries →
  forallb admissible evs = true →
  ∃ entries', log_entries (process this evs) = Some entries'
    ∧ length entries' = (length entries + qualifying_events full started evs)%nat.
Proof.
  induction evs as [|[now e] evs IH]; intros full started this entries Hfull Hclock Hlog Hadm.
  - exists entries. split; [exact Hlog | cbn; lia].
  - cbn [forallb] in Hadm. apply andb_prop in Hadm as [Hev Hadm].
    unfold admissible in Hev. apply andb_prop in Hev as [Hnow Hwf].
    cbn [fst snd] in Hnow, Hwf.
    apply negb_true_iff, Z.eqb_neq in Hnow.
    destruct (react_counts full started this entries now e Hfull Hclock Hlog Hwf Hnow)
      as (Hfull' & Hclock' & entries1 & Hlog1 & Hlen1).
    destruct (IH full (starts started e) (react this (now, e)) entries1
                 Hfull' Hclock' Hlog1 Hadm) as (entries' & Hlog' & Hlen').
    exists entries'. split; [exact Hlog'|].
    cbn [qualifying_events]. lia.
Qed.

(** ** The claims *)

(** C1: for every sequence of documented events processed by a freshly
    constructed logger, in either mode, the log array has exactly as many
    entries as there are events that qualify for recording: a full-state
    event with both [objs] and [grippers] empty arriving while the clock is
    unset does not count, nor does a gripper or object update arriving
    while the clock is unset, nor a config update arriving while the clock
    is unset in full-state mode; every other event counts once. *)
Theorem log_length_counts_qualifying_events (fullState : bool) (evs : list (Z * event)) :
  forallb admissible evs = true →
  ∃ entries, log_entries (process (new_LogView fullState) evs) = Some entries
    ∧ length entries = qualifying_events fullState false evs.
Proof.
  intros Hadm.
  destruct (process_counts evs fullState false (new_LogView fullState) [])
    as (entries & Hlog & Hlen); try done.
  by exists entries.
Qed.

(** C2: a fresh full-state-mode logger that receives, as its first event,
    a full-state payload whose [objs] mapping is not empty sets the session
    clock to the current time and appends exactly one snapshot, at offset
    [0], holding the complete state [{objs, grippers, config}] with the
    initial empty [config]. *)
Theorem first_full_state_starts_session
    (now : Z) (props objs : list (string * value)) (grippers : value) :
  own_property "objs" props = Some (VObj objs) →
  objs ≠ [] →
  own_property "grippers" props = Some grippers →
  now ≠ 0 →
  let r := deliver now (update_state (VObj props)) (new_LogView true) in
  completed r = Normal ()
  ∧ clock_set_at now (this_after r)
  ∧ log_entries (this_after r)
    = Some [snapshot 0 (VObj [("objs", VObj objs);
                              ("grippers", grippers);
                              ("config", VObj [])])]
  ∧ currentConfig (this_after r) = VObj [].
Proof.
  intros Hobjs Hne Hgrippers Hnow.
  destruct objs as [|p objs]; [done|].
  pose proof (lookup_singleton_eq (M := gmap string) "log" (VArr [])) as Hlog.
  unfold new_LogView. run_js.
  repeat split; done.
Qed.

(** C3: while the session clock is unset, a full-state event whose [objs]
    and [grippers] are both empty mappings is ignored: the reaction returns
    normally and leaves the whole instance as it was, so no snapshot is
    appended, the clock stays unset and no accumulated substate changes. *)
Theorem empty_full_state_ignored
    (this : LogView) (now : Z) (props : list (string * value)) :
  clock_unset this →
  own_property "objs" props = Some (VObj []) →
  own_property "grippers" props = Some (VObj []) →
  deliver now (update_state (VObj props)) this = Run (Normal ()) this [].
Proof.
  unfold clock_unset. intros Hclock Hobjs Hgrippers.
  destruct this as [d full st co cg cc]. cbn [startTime] in Hclock. subst st.
  by run_js.
Qed.

(** [clear] rebuilds the instance the constructor builds for the mode. *)
Lemma clear_run (this : LogView) :
  clear this = Run (Normal VUndefined) (new_LogView (logFullState this)) [].
Proof. destruct this as [d full st co cg cc]. by run_js. Qed.

(** C8: [clear] is idempotent, and the instance it leaves is the one the
    constructor builds for the same mode: empty log, no auxiliary key,
    unset clock and three empty substates. *)
Theorem clear_idempotent (this : LogView) :
  clear (this_after (clear this)) = clear this
  ∧ this_after (clear this) = new_LogView (logFullState this)
  ∧ data (this_after (clear this)) = {[ "log" := VArr [] ]}
  ∧ startTime (this_after (clear this)) = None
  ∧ currentObjs (this_after (clear this)) = VObj []
  ∧ currentGrippers (this_after (clear this)) = VObj []
  ∧ currentConfig (this_after (clear this)) = VObj [].
Proof. by rewrite !clear_run. Qed.

(** C9: in delta mode, a gripper update processed after the session clock
    was set appends one snapshot whose payload wraps the received value
    under the singular key ["gripper"], which is not the plural
    ["grippers"] of the event name and of the full-state field. *)
Theorem delta_gripper_snapshot
    (this : LogView) (t0 now : Z) (grippers : value) (entries : list value) :
  logFullState this = false →
  clock_set_at t0 this →
  log_entries this = Some entries →
  deliver now (update_grippers grippers) this
  = Run (Normal ())
        (mkLogView
           (<["log" := VArr (entries
                             ++ [snapshot (now - t0) (VObj [("gripper", grippers)])])]>
              (data this))
           false (Some t0) (currentObjs this) (currentGrippers this)
           (currentConfig this)) []
  ∧ VObj [("gripper", grippers)] ≠ VObj [("grippers", grippers)].
Proof.
  intros Hfull [Hst Ht0] Hlog%log_entries_data.
  destruct this as [d full st co cg cc]. cbn in Hfull, Hst, Hlog. subst full st.
  pose proof (proj2 (Z.eqb_neq t0 0) Ht0) as Hfalsy.
  split; [by run_js | discriminate].
Qed.

(** What a partial update leaves alone in full-state mode, whatever the
    clock and the log are. *)
Lemma partial_update_frame (this : LogView) (now : Z) (e : event) :
  logFullState this = true →
  (∀ state, e ≠ update_state state) →
  same_auxiliary_data this (react this (now, e))
  ∧ ((∀ v, e ≠ update_objs v) → currentObjs (react this (now, e)) = currentObjs this)
  ∧ ((∀ v, e ≠ update_grippers v) →
     currentGrippers (react this (now, e)) = currentGrippers this)
  ∧ ((∀ v, e ≠ update_config v) →
     currentConfig (react this (now, e)) = currentConfig this).
Proof.
  intros Hfull Hpartial.
  destruct this as [d full st co cg cc]. cbn in Hfull. subst full.
  destruct e as [state|v|v|v]; [by destruct (Hpartial state)|..].
  all: destruct st as [t0|]; [destruct (t0 =? 0) eqn:Hfalsy|].
  all: destruct (d !! "log") as [[| | | | |entries|]|] eqn:Hlog.
  all: run_js.
  all: repeat split; try done.
  all: try (intros key Hkey; cbn [data]; by rewrite lookup_insert_ne).
  all: intros Hother; by destruct (Hother v).
Qed.

(** C10: in full-state mode each partial update touches only its own
    accumulated substate: a gripper update leaves the accumulated objects
    and config as they were, an object update the grippers and config, a
    config update the objects and grippers; none changes an auxiliary
    entry of [data]. *)
Theorem full_state_partial_updates_frame (this : LogView) (now : Z) (v : value) :
  logFullState this = true →
  (currentObjs (react this (now, update_grippers v)) = currentObjs this
   ∧ currentConfig (react this (now, update_grippers v)) = currentConfig this
   ∧ same_auxiliary_data this (react this (now, update_grippers v)))
  ∧ (currentGrippers (react this (now, update_objs v)) = currentGrippers this
     ∧ currentConfig (react this (now, update_objs v)) = currentConfig this
     ∧ same_auxiliary_data this (react this (now, update_objs v)))
  ∧ (currentObjs (react this (now, update_config v)) = currentObjs this
     ∧ currentGrippers (react this (now, update_config v)) = currentGrippers this
     ∧ same_auxiliary_data this (react this (now, update_config v))).
Proof.
  intros Hfull.
  destruct (partial_update_frame this now (update_grippers v) Hfull)
    as (Haux1 & Hobjs1 & _ & Hconfig1); [done|].
  destruct (partial_update_frame this now (update_objs v) Hfull)
    as (Haux2 & _ & Hgrippers2 & Hconfig2); [done|].
  destruct (partial_update_frame this now (update_config v) Hfull)
    as (Haux3 & Hobjs3 & Hgrippers3 & _); [done|].
  repeat split; auto.
Qed.

(** Every call of [addData] completes normally with [undefined]. *)
Lemma addData_completed (key : string) (d : value) (this : LogView) :
  completed (addData key d this) = Normal VUndefined.
Proof.
  unfold addData.
  destruct (String.eqb key "log"); [|destruct (String.eqb key "__proto__")];
    by run_js.
Qed.

(** C6, as amended: for every instance and every value, [addData] with the
    reserved key ["log"] leaves the instance, and so the [data] object with
    its log and auxiliary entries, exactly as it was and writes one
    diagnostic message to the console; it returns [undefined], which is
    what every accepted call returns as well, so the rejection shows in the
    console only. *)
Theorem addData_reserved_key (this : LogView) (d : value) :
  addData "log" d this
  = Run (Normal VUndefined) this
        [console_log "Error at LogView: Cannot manually add data with reserved key 'log'."]
  ∧ ∀ key d' this', completed (addData key d' this') = completed (addData "log" d this).
Proof.
  split; [by run_js|].
  intros key d' this'. by rewrite !addData_completed.
Qed.

(** C6, as stated, fails on the scenario of the specification: the [data]
    object is unchanged and a diagnostic is emitted, but the result of
    [addData("log", [1,2,3])] is the result of the accepted
    [addData("participant", [1,2,3])], so it cannot tell the caller of the
    rejection. *)
Lemma addData_reserved_key_result_indistinct :
  ¬ (data (this_after (addData "log" (VArr [VNum 1; VNum 2; VNum 3]) (new_LogView true)))
     = data (new_LogView true)
     ∧ emitted (addData "log" (VArr [VNum 1; VNum 2; VNum 3]) (new_LogView true)) ≠ []
     ∧ completed (addData "log" (VArr [VNum 1; VNum 2; VNum 3]) (new_LogView true))
       ≠ completed (addData "participant" (VArr [VNum 1; VNum 2; VNum 3])
                            (new_LogView true))).
Proof. intros (_ & _ & Hdistinct). by apply Hdistinct. Qed.

(** Case analysis on a full-state payload, as far as the emptiness test of
    [on_update_state] looks into it. *)
Ltac case_keys v :=
  destruct v as [| | | |[|? ?]|[|? ?]|[|? ?]].

Ltac case_payload state :=
  let props := fresh "props" in
  let objs := fresh "objs" in
  let grippers := fresh "grippers" in
  let Hobjs := fresh "Hobjs" in
  let Hgrippers := fresh "Hgrippers" in
  destruct state as [| | | | | |props];
  [..|
   destruct (own_property "objs" props) as [objs|] eqn:Hobjs;
   [case_keys objs|];
   (destruct (own_property "grippers" props) as [grippers|] eqn:Hgrippers;
    [case_keys grippers|])].

(** The start time of an instance, as the handlers test it. *)
Ltac case_clock st :=
  let t := fresh "t" in
  let Hfalsy := fresh "Hfalsy" in
  destruct st as [t|]; [destruct (t =? 0) eqn:Hfalsy|].

(** Once the clock is set, no reaction assigns the start time. *)
Lemma react_clock_fixed (this : LogView) (t0 now : Z) (e : event) :
  clock_set_at t0 this → clock_set_at t0 (react this (now, e)).
Proof.
  intros [Hst Ht0]. split; [|exact Ht0].
  destruct this as [d full st co cg cc]. cbn in Hst. subst st.
  pose proof (proj2 (Z.eqb_neq t0 0) Ht0) as Hfalsy.
  destruct (d !! "log") as [[| | | | |entries|]|] eqn:Hlog.
  all: destruct e as [state|v|v|v]; [destruct state|..]; destruct full; by run_js.
Qed.

Lemma process_clock_fixed (evs : list (Z * event)) : ∀ (this : LogView) (t0 : Z),
  clock_set_at t0 this → clock_set_at t0 (process this evs).
Proof.
  induction evs as [|[now e] evs IH]; intros this t0 Hclock; [exact Hclock|].
  apply IH. by apply react_clock_fixed.
Qed.

(** What every reaction keeps: the mode, the auxiliary entries, a log that
    is an array, and the accumulated config unless the event is a config
    update. *)
Lemma react_keeps (this : LogView) (now : Z) (e : event) (entries : list value) :
  log_entries this = Some entries →
  logFullState (react this (now, e)) = logFullState this
  ∧ same_auxiliary_data this (react this (now, e))
  ∧ (∃ entries', log_entries (react this (now, e)) = Some entries')
  ∧ ((∀ c, e ≠ update_config c) →
     currentConfig (react this (now, e)) = currentConfig this).
Proof.
  intros Hlog%log_entries_data.
  destruct this as [d full st co cg cc]. cbn in Hlog.
  assert (Hkept : ∀ full st co cg cc,
             ∃ entries', log_entries (mkLogView d full st co cg cc) = Some entries').
  { intros. exists entries. by apply data_log_entries. }
  assert (Hconfig : (∀ c, e ≠ update_config c) ∨ ∃ c, e = update_config c).
  { destruct e; [left; discriminate ..|right; by eexists]. }
  destruct e as [state|v|v|v];
    [case_clock st; [case_payload state| destruct state |case_payload state]
    | case_clock st ..];
    destruct full; run_js.
  all: split; [reflexivity|].
  all: split;
    [intros key Hkey; cbn [data]; first [reflexivity | by rewrite lookup_insert_ne]|].
  all: split; [first [apply Hkept | eexists; apply log_entries_pushed]|].
  all: destruct Hconfig as [Hconfig|[c Hconfig]];
    [reflexivity || by destruct (Hconfig v) | intros Hother; by destruct (Hother c)].
Qed.

(** Before the clock is set, an event other than a config update either
    leaves the instance as it is or is a full-state event that sets the
    clock in this very reaction and is recorded at offset [0]. *)
Lemma react_before_start (this : LogView) (now : Z) (e : event) (entries : list value) :
  clock_unset this →
  log_entries this = Some entries →
  (∀ c, e ≠ update_config c) →
  react this (now, e) = this
  ∨ ((∃ state, e = update_state state)
     ∧ startTime (react this (now, e)) = Some now
     ∧ ∃ payload, log_entries (react this (now, e))
                  = Some (entries ++ [snapshot 0 payload])).
Proof.
  unfold clock_unset. intros Hst Hlog%log_entries_data Hother.
  destruct this as [d full st co cg cc]. cbn in Hst, Hlog. subst st.
  destruct e as [state|v|v|v]; [| | |by destruct (Hother v)]; clear Hother.
  - case_payload state; destruct full; run_js.
    all: first [ by left
               | right; split; [by eexists|]; split; [reflexivity|];
                 eexists; apply log_entries_pushed ].
  - left. by run_js.
  - left. by run_js.
Qed.

(** C5: in delta mode with the session clock unset, a config update at
    once appends a snapshot with the sentinel offset [-1] and the payload
    [{config: payload}], the clock staying unset; no event of another kind
    is recorded while the clock is unset: it either leaves the instance as
    it is or is the full-state event that sets the clock, recorded at
    offset [0]. *)
Theorem delta_config_before_start
    (this : LogView) (now : Z) (config : value) (entries : list value) :
  logFullState this = false →
  clock_unset this →
  log_entries this = Some entries →
  deliver now (update_config config) this
  = Run (Normal ())
        (mkLogView
           (<["log" := VArr (entries ++ [snapshot (-1) (VObj [("config", config)])])]>
              (data this))
           false None (currentObjs this) (currentGrippers this) (currentConfig this)) []
  ∧ ∀ now' e, (∀ c, e ≠ update_config c) →
      react this (now', e) = this
      ∨ ((∃ state, e = update_state state)
         ∧ startTime (react this (now', e)) = Some now'
         ∧ ∃ payload, log_entries (react this (now', e))
                      = Some (entries ++ [snapshot 0 payload])).
Proof.
  intros Hfull Hclock Hlog. split.
  - apply log_entries_data in Hlog. unfold clock_unset in Hclock.
    destruct this as [d full st co cg cc]. cbn in Hfull, Hclock, Hlog. subst full st.
    by run_js.
  - intros now' e Hother. by apply react_before_start.
Qed.

(** In full-state mode a full-state event that is not skipped appends the
    received [objs] and [grippers] together with the config held at that
    moment. *)
Lemma full_state_snapshot
    (this : LogView) (now : Z) (props objs grippers : list (string * value))
    (entries : list value) :
  logFullState this = true →
  log_entries this = Some entries →
  own_property "objs" props = Some (VObj objs) →
  own_property "grippers" props = Some (VObj grippers) →
  objs ≠ [] ∨ grippers ≠ [] →
  ∃ offset, log_entries (react this (now, update_state (VObj props)))
            = Some (entries ++ [snapshot offset
                                  (VObj [("objs", VObj objs);
                                         ("grippers", VObj grippers);
                                         ("config", currentConfig this)])]).
Proof.
  intros Hfull Hlog%log_entries_data Hobjs Hgrippers Hne.
  destruct this as [d full st co cg cc]. cbn in Hfull, Hlog. subst full.
  assert (Hcases : (∃ p l, objs = p :: l) ∨ (objs = [] ∧ ∃ p l, grippers = p :: l)).
  { destruct objs as [|p l]; [right|left; by eauto].
    destruct grippers as [|p l]; [by destruct Hne|by eauto]. }
  clear Hne.
  destruct Hcases as [(p & l & ->)|(-> & p & l & ->)]; case_clock st; run_js.
  all: eexists; apply log_entries_pushed.
Qed.

Lemma process_keeps_config (evs : list (Z * event)) : ∀ (this : LogView) entries,
  log_entries this = Some entries →
  forallb (λ ev, negb (is_config_update ev.2)) evs = true →
  logFullState (process this evs) = logFullState this
  ∧ (∃ entries', log_entries (process this evs) = Some entries')
  ∧ currentConfig (process this evs) = currentConfig this.
Proof.
  induction evs as [|[now e] evs IH]; intros this entries Hlog Hnone.
  - by eauto.
  - cbn [forallb snd] in Hnone. apply andb_prop in Hnone as [He Hnone].
    destruct (react_keeps this now e entries Hlog)
      as (Hfull & _ & (entries1 & Hlog1) & Hconfig).
    destruct (IH (react this (now, e)) entries1 Hlog1 Hnone)
      as (Hfull' & Hlog' & Hconfig').
    change (process this ((now, e) :: evs)) with (process (react this (now, e)) evs).
    rewrite Hfull', Hconfig', Hfull, Hconfig; [done|].
    intros c ->. discriminate.
Qed.

(** C4: in full-state mode with the session clock unset, a config update
    appends no snapshot ([data] is unchanged) and stores the config in the
    accumulated substate; the snapshot that a later full-state event with
    a non-empty [objs] or [grippers] records then holds that config, as
    long as no other config update came in between. *)
Theorem full_state_config_cached
    (this : LogView) (now : Z) (config : value) (entries : list value) :
  logFullState this = true →
  clock_unset this →
  log_entries this = Some entries →
  deliver now (update_config config) this
  = Run (Normal ())
        (mkLogView (data this) true None
                   (currentObjs this) (currentGrippers this) config) []
  ∧ ∀ evs later props objs grippers,
      forallb (λ ev, negb (is_config_update ev.2)) evs = true →
      own_property "objs" props = Some (VObj objs) →
      own_property "grippers" props = Some (VObj grippers) →
      objs ≠ [] ∨ grippers ≠ [] →
      ∃ entries' offset,
        log_entries (react (process (react this (now, update_config config)) evs)
                           (later, update_state (VObj props)))
        = Some (entries' ++ [snapshot offset
                               (VObj [("objs", VObj objs);
                                      ("grippers", VObj grippers);
                                      ("config", config)])]).
Proof.
  intros Hfull Hclock Hlog.
  assert (Hrun : deliver now (update_config config) this
                 = Run (Normal ())
                       (mkLogView (data this) true None
                                  (currentObjs this) (currentGrippers this) config) []).
  { unfold clock_unset in Hclock.
    destruct this as [d full st co cg cc]. cbn in Hfull, Hclock. subst full st.
    by run_js. }
  split; [exact Hrun|].
  intros evs later props objs grippers Hnone Hobjs Hgrippers Hne.
  unfold react at 2. cbn [fst snd]. rewrite Hrun. cbn [this_after].
  set (cached := mkLogView (data this) true None
                           (currentObjs this) (currentGrippers this) config).
  assert (Hlog0 : log_entries cached = Some entries).
  { apply data_log_entries. cbn. by apply log_entries_data. }
  destruct (process_keeps_config evs cached entries Hlog0 Hnone)
    as (Hfull1 & (entries1 & Hlog1) & Hconfig1).
  destruct (full_state_snapshot (process cached evs) later props objs grippers
              entries1 Hfull1 Hlog1 Hobjs Hgrippers Hne) as (offset & Hsnap).
  exists entries1, offset. by rewrite Hsnap, Hconfig1.
Qed.

(** With the clock set at [t0], a documented event appends one snapshot
    whose offset is the time elapsed since [t0]. *)
Lemma react_offset
    (this : LogView) (t0 now : Z) (e : event) (entries : list value) :
  clock_set_at t0 this →
  well_formed e = true →
  log_entries this = Some entries →
  ∃ payload, log_entries (react this (now, e))
             = Some (entries ++ [snapshot (now - t0) payload]).
Proof.
  intros [Hst Ht0] Hwf Hlog%log_entries_data.
  destruct this as [d full st co cg cc]. cbn in Hst, Hlog. subst st.
  pose proof (proj2 (Z.eqb_neq t0 0) Ht0) as Hfalsy.
  destruct e as [state|v|v|v];
    [apply full_state_payload_inv in Hwf
       as (props & objs & grippers & -> & Hobjs & Hgrippers)|..];
    destruct full; run_js.
  all: eexists; apply log_entries_pushed.
Qed.

Lemma perform_clock_fixed (this : LogView) (t0 : Z) (c : call) :
  clock_set_at t0 this → clock_set_at t0 (perform this c).
Proof.
  intros Hclock. destruct c as [now e|key d|endpoint]; cbn [perform].
  - by apply react_clock_fixed.
  - destruct Hclock as [Hst Ht0]. split; [|exact Ht0].
    destruct this as [dt full st co cg cc]. cbn in Hst. subst st.
    unfold addData.
    destruct (String.eqb key "log"); [|destruct (String.eqb key "__proto__")];
      by run_js.
  - destruct Hclock as [Hst Ht0]. split; [|exact Ht0].
    destruct this as [dt full st co cg cc]. cbn in Hst. subst st.
    by run_js.
Qed.

Lemma perform_all_clock_fixed (cs : list call) : ∀ (this : LogView) (t0 : Z),
  clock_set_at t0 this → clock_set_at t0 (perform_all this cs).
Proof.
  induction cs as [|c cs IH]; intros this t0 Hclock; [exact Hclock|].
  apply IH. by apply perform_clock_fixed.
Qed.

(** C7: once the session clock is set, at [t0], no event reaction changes
    it, nor does [addData] or [sendData], in any number and order; every
    documented event that arrives later is recorded at the time elapsed
    since that same [t0].  [clear] un-sets the clock, and the next
    full-state event with a non-empty [objs] or [grippers] then sets it
    anew and is recorded at offset [0]. *)
Theorem clock_fixed_until_clear (this : LogView) (t0 : Z) :
  clock_set_at t0 this →
  (∀ cs, clock_set_at t0 (perform_all this cs))
  ∧ (∀ cs now e entries,
       well_formed e = true →
       log_entries (perform_all this cs) = Some entries →
       ∃ payload, log_entries (react (perform_all this cs) (now, e))
                  = Some (entries ++ [snapshot (now - t0) payload]))
  ∧ clock_unset (this_after (clear this))
  ∧ (∀ now props objs grippers,
       now ≠ 0 →
       own_property "objs" props = Some (VObj objs) →
       own_property "grippers" props = Some (VObj grippers) →
       objs ≠ [] ∨ grippers ≠ [] →
       clock_set_at now (react (this_after (clear this)) (now, update_state (VObj props)))
       ∧ ∃ payload,
           log_entries (react (this_after (clear this)) (now, update_state (VObj props)))
           = Some [snapshot 0 payload]).
Proof.
  intros Hclock. split; [|split; [|split]].
  - intros cs. by apply perform_all_clock_fixed.
  - intros cs now e entries Hwf Hlog.
    apply react_offset; [by apply perform_all_clock_fixed|done..].
  - by rewrite clear_run.
  - intros now props objs grippers Hnow Hobjs Hgrippers Hne.
    rewrite clear_run. cbn [this_after].
    assert (Hunset : clock_unset (new_LogView (logFullState this))) by done.
    assert (Hlog : log_entries (new_LogView (logFullState this)) = Some []) by done.
    destruct (react_before_start _ now (update_state (VObj props)) [] Hunset Hlog)
      as [Hsame|(_ & Hst & Hsnap)]; [done| |by split].
    exfalso. revert Hsame. unfold new_LogView.
    pose proof (lookup_singleton_eq (M := gmap string) "log" (VArr [])) as Hget.
    destruct (logFullState this), objs as [|? ?], grippers as [|? ?]; run_js;
      first [by destruct Hne | discriminate].
Qed.


(** ** The claims on the sample sessions *)

Example session_a_full_state :
  log_entries (process (new_LogView true) session_a)
  = Some [snapshot 0 (VObj [("objs", VObj [("a", VNum 1)]);
                            ("grippers", VObj []);
                            ("config", config_a)]);
          snapshot 50 (VObj [("objs", VObj [("a", VNum 1)]);
                             ("grippers", grippers_a);
                             ("config", config_a)]);
          snapshot 100 (VObj [("objs", VObj [("a", VNum 1)]);
                              ("grippers", grippers_a);
                              ("config", config_a)]);
          snapshot 110 (VObj [("objs", VObj []);
                              ("grippers", grippers_a);
                              ("config", config_a)])].
Proof. vm_compute. reflexivity. Qed.

Example session_a_delta :
  log_entries (process (new_LogView false) session_a)
  = Some [snapshot (-1) (VObj [("config", config_a)]);
          snapshot 0 state_a;
          snapshot 50 (VObj [("gripper", grippers_a)]);
          snapshot 100 (VObj [("gripper", grippers_a)]);
          snapshot 110 (VObj [("objs", VObj [])])].
Proof. vm_compute. reflexivity. Qed.

Example addData_accepts_participant :
  data (this_after (addData "participant" (VNum 7) (new_LogView true))) !! "participant"
  = Some (VNum 7).
Proof. vm_compute. reflexivity. Qed.

Lemma log_length_counts_qualifying_events_witness :
  forallb admissible session_a = true
  ∧ ∃ entries, log_entries (process (new_LogView true) session_a) = Some entries
      ∧ length entries = 4%nat.
Proof.
  split; [reflexivity|].
  apply (log_length_counts_qualifying_events true session_a). reflexivity.
Defined.

Lemma first_full_state_starts_session_witness :
  completed (deliver 1700000000030 (update_state state_a) (new_LogView true)) = Normal ()
  ∧ clock_set_at 1700000000030
      (this_after (deliver 1700000000030 (update_state state_a) (new_LogView true)))
  ∧ log_entries
      (this_after (deliver 1700000000030 (update_state state_a) (new_LogView true)))
    = Some [snapshot 0 (VObj [("objs", VObj [("a", VNum 1)]);
                              ("grippers", VObj []);
                              ("config", VObj [])])]
  ∧ currentConfig
      (this_after (deliver 1700000000030 (update_state state_a) (new_LogView true)))
    = VObj [].
Proof.
  apply (first_full_state_starts_session 1700000000030
           [("objs", VObj [("a", VNum 1)]); ("grippers", VObj [])]
           [("a", VNum 1)] (VObj []));
    [reflexivity | discriminate | reflexivity | lia].
Defined.

Lemma empty_full_state_ignored_witness :
  clock_unset (new_LogView true)
  ∧ deliver 1700000000000 (update_state state_empty) (new_LogView true)
    = Run (Normal ()) (new_LogView true) [].
Proof.
  split; [reflexivity|].
  apply (empty_full_state_ignored (new_LogView true) 1700000000000
           [("objs", VObj []); ("grippers", VObj [])]); reflexivity.
Defined.

Lemma full_state_config_cached_witness :
  log_entries (new_LogView true) = Some []
  ∧ log_entries (react (new_LogView true) (1700000000010, update_config config_a))
    = Some []
  ∧ ∃ entries' offset,
      log_entries
        (react (process (react (new_LogView true) (1700000000010, update_config config_a))
                        [(1700000000020, update_grippers grippers_a)])
               (1700000000030, update_state state_a))
      = Some (entries' ++ [snapshot offset
                             (VObj [("objs", VObj [("a", VNum 1)]);
                                    ("grippers", VObj []);
                                    ("config", config_a)])]).
Proof.
  pose proof (full_state_config_cached (new_LogView true) 1700000000010 config_a []
                eq_refl eq_refl eq_refl) as [Hrun Hlater].
  split; [reflexivity|]. split.
  - unfold react. cbn [fst snd]. rewrite Hrun. reflexivity.
  - apply (Hlater [(1700000000020, update_grippers grippers_a)] 1700000000030
             [("objs", VObj [("a", VNum 1)]); ("grippers", VObj [])]
             [("a", VNum 1)] []);
      [reflexivity | reflexivity | reflexivity | left; discriminate].
Defined.

Lemma delta_config_before_start_witness :
  logFullState (new_LogView false) = false
  ∧ clock_unset (new_LogView false)
  ∧ log_entries (react (new_LogView false) (1700000000010, update_config config_a))
    = Some [snapshot (-1) (VObj [("config", config_a)])]
  ∧ react (new_LogView false) (1700000000020, update_grippers grippers_a)
    = new_LogView false.
Proof.
  pose proof (delta_config_before_start (new_LogView false) 1700000000010 config_a []
                eq_refl eq_refl eq_refl) as [Hrun Honly].
  split; [reflexivity|]. split; [reflexivity|]. split.
  - unfold react. cbn [fst snd]. rewrite Hrun. reflexivity.
  - destruct (Honly 1700000000020 (update_grippers grippers_a))
      as [Hsame|[[state Hstate] _]]; [discriminate | exact Hsame | discriminate].
Defined.

Lemma clock_fixed_until_clear_witness :
  clock_set_at 1700000000030 started_full
  ∧ clock_set_at 1700000000030
      (perform_all started_full
         [arrives 1700000000080 (update_grippers grippers_a);
          calls_addData "participant" (VNum 7);
          arrives 1700000000090 (update_state state_empty);
          calls_sendData "/save_log"])
  ∧ clock_unset (this_after (clear started_full)).
Proof.
  assert (Hset : clock_set_at 1700000000030 started_full)
    by (split; [reflexivity | lia]).
  pose proof (clock_fixed_until_clear started_full 1700000000030 Hset)
    as (Hfixed & _ & Hclear & _).
  split; [exact Hset|]. split; [apply Hfixed | exact Hclear].
Defined.

Lemma delta_gripper_snapshot_witness :
  logFullState started_delta = false
  ∧ clock_set_at 1700000000030 started_delta
  ∧ log_entries started_delta = Some [snapshot 0 state_a]
  ∧ log_entries (react started_delta (1700000000080, update_grippers grippers_a))
    = Some [snapshot 0 state_a; snapshot 50 (VObj [("gripper", grippers_a)])].
Proof.
  assert (Hset : clock_set_at 1700000000030 started_delta)
    by (split; [reflexivity | lia]).
  assert (Hlog : log_entries started_delta = Some [snapshot 0 state_a])
    by (vm_compute; reflexivity).
  pose proof (delta_gripper_snapshot started_delta 1700000000030 1700000000080
                grippers_a [snapshot 0 state_a] eq_refl Hset Hlog) as [Hrun _].
  split; [reflexivity|]. split; [exact Hset|]. split; [exact Hlog|].
  unfold react. cbn [fst snd]. rewrite Hrun. apply log_entries_pushed.
Defined.

Lemma full_state_partial_updates_frame_witness :
  logFullState started_full = true
  ∧ currentObjs (react started_full (1700000000080, update_grippers grippers_a))
    = currentObjs started_full
  ∧ currentConfig (react started_full (1700000000080, update_grippers grippers_a))
    = currentConfig started_full.
Proof.
  pose proof (full_state_partial_updates_frame started_full 1700000000080 grippers_a
                eq_refl) as ((Hobjs & Hconfig & _) & _).
  split; [reflexivity|]. split; [exact Hobjs | exact Hconfig].
Defined.

(** ** Further properties of the class *)

(** *** Auxiliary data *)

(** [addData] with a key that is neither reserved nor ["__proto__"]. *)
Lemma addData_run (key : string) (d : value) (this : LogView) :
  key ≠ "log" → key ≠ "__proto__" →
  addData key d this = Run (Normal VUndefined) (with_data (<[key := d]> (data this)) this) [].
Proof.
  intros Hlog%String.eqb_neq Hproto%String.eqb_neq.
  unfold addData. rewrite Hlog, Hproto. destruct this. by run_js.
Qed.

(** X1: [addData] with an accepted key stores the value under that key of
    [data] and nothing else happens: every other entry, the log among
    them, is as before, as are the clock, the mode and the accumulated
    substates, and nothing is written to the console. *)
Theorem addData_stores (key : string) (d : value) (this : LogView) :
  key ≠ "log" → key ≠ "__proto__" →
  data (this_after (addData key d this)) !! key = Some d
  ∧ (∀ key', key' ≠ key →
       data (this_after (addData key d this)) !! key' = data this !! key')
  ∧ log_entries (this_after (addData key d this)) = log_entries this
  ∧ with_data (data this) (this_after (addData key d this)) = this
  ∧ emitted (addData key d this) = [].
Proof.
  intros Hlog Hproto. rewrite addData_run by done. cbn [this_after emitted].
  unfold log_entries, with_data. cbn [data].
  rewrite lookup_insert_eq, lookup_insert_ne by done.
  repeat split; [|by destruct this].
  intros key' Hne. by rewrite lookup_insert_ne.
Qed.

Lemma addData_stores_witness :
  data (this_after (addData "participant" (VNum 7) started_full)) !! "participant"
  = Some (VNum 7)
  ∧ log_entries (this_after (addData "participant" (VNum 7) started_full))
    = log_entries started_full.
Proof.
  pose proof (addData_stores "participant" (VNum 7) started_full)
    as (Hstored & _ & Hlog & _); [discriminate | discriminate |].
  split; [exact Hstored | exact Hlog].
Defined.

(** X2: for accepted keys the last [addData] wins: a second call with the
    same key replaces the value of the first, and calls with different
    keys can be made in either order. *)
Theorem addData_last_wins (key key' : string) (d d' : value) (this : LogView) :
  key ≠ "log" → key ≠ "__proto__" → key' ≠ "log" → key' ≠ "__proto__" →
  this_after (addData key d' (this_after (addData key d this)))
  = this_after (addData key d' this)
  ∧ (key ≠ key' →
     this_after (addData key' d' (this_after (addData key d this)))
     = this_after (addData key d (this_after (addData key' d' this)))).
Proof.
  intros Hlog Hproto Hlog' Hproto'.
  rewrite !addData_run by done. cbn [this_after]. unfold with_data. cbn.
  split; [by rewrite insert_insert_eq|].
  intros Hne. by rewrite (insert_insert_ne _ key' key) by done.
Qed.

Lemma addData_last_wins_witness :
  this_after (addData "participant" (VNum 8)
                (this_after (addData "participant" (VNum 7) started_full)))
  = this_after (addData "participant" (VNum 8) started_full).
Proof.
  apply (addData_last_wins "participant" "trial" (VNum 7) (VNum 8) started_full);
    discriminate.
Defined.

(** *** One reaction, in full *)

(** What one event does to an instance that holds a log array, for every
    event and payload: nothing is emitted, and either the instance stays as
    it is (an early return, an update before the start, or a [TypeError]
    on a full-state payload of another shape), or the config is cached, or
    one snapshot is appended. *)
Lemma deliver_cases (this : LogView) (now : Z) (e : event) (entries : list value) :
  log_entries this = Some entries →
  emitted (deliver now e this) = []
  ∧ ((this_after (deliver now e this) = this
      ∧ (completed (deliver now e this) = Normal ()
         ∨ ∃ state, e = update_state state
             ∧ full_state_payload state = false
             ∧ completed (deliver now e this) = Thrown "TypeError"))
     ∨ (∃ c, e = update_config c
         ∧ logFullState this = true
         ∧ truthy_startTime this = None
         ∧ deliver now e this
           = Run (Normal ())
                 (mkLogView (data this) true (startTime this)
                            (currentObjs this) (currentGrippers this) c) [])
     ∨ (∃ offset,
         completed (deliver now e this) = Normal ()
         ∧ log_entries (this_after (deliver now e this))
           = Some (entries
                   ++ [snapshot offset
                         (if logFullState this
                          then full_state_of (this_after (deliver now e this))
                          else delta_payload e)])
         ∧ logFullState (this_after (deliver now e this)) = logFullState this
         ∧ ((∃ t0, truthy_startTime this = Some t0
              ∧ offset = now - t0
              ∧ startTime (this_after (deliver now e this)) = startTime this)
            ∨ (∃ state, e = update_state state
                ∧ truthy_startTime this = None
                ∧ offset = 0
                ∧ startTime (this_after (deliver now e this)) = Some now)
            ∨ (∃ c, e = update_config c
                ∧ truthy_startTime this = None
                ∧ logFullState this = false
                ∧ offset = -1
                ∧ startTime (this_after (deliver now e this)) = startTime this)))).
Proof.
  intros Hlog%log_entries_data.
  destruct this as [d full st co cg cc]. cbn in Hlog.
  destruct e as [state|v|v|v];
    [case_clock st; [case_payload state| destruct state |case_payload state]
    | case_clock st ..];
    destruct full; run_js.
  all: split; [reflexivity|].
  all: first
    [ left; split; [reflexivity|];
      first [ left; reflexivity
            | right; eexists; split; [reflexivity|]; split; [|reflexivity];
              cbn [full_state_payload]; rewrite ?Hobjs, ?Hgrippers; reflexivity ]
    | right; left; eexists; split; [reflexivity|]; split; [reflexivity|];
      split; reflexivity
    | right; right; eexists; split; [reflexivity|];
      split; [apply log_entries_pushed|]; split; [reflexivity|];
      first [ left; eexists; split; [reflexivity|]; split; reflexivity
            | right; left; eexists; split; [reflexivity|]; split; [reflexivity|];
              split; reflexivity
            | right; right; eexists; split; [reflexivity|]; split; [reflexivity|];
              split; [reflexivity|]; split; reflexivity ] ].
Qed.

(** X3: on an instance that holds a log array a handler writes nothing to
    the console or the network, and it can only fail in the full-state
    handler, on a payload that is not of the shape
    [{objs: Mapping, grippers: Mapping}]: the [TypeError] then leaves the
    whole instance as it was.  Gripper, object and config updates never
    throw, whatever their payload. *)
Theorem deliver_exception_safe
    (this : LogView) (now : Z) (e : event) (entries : list value) :
  log_entries this = Some entries →
  emitted (deliver now e this) = []
  ∧ (well_formed e = true → completed (deliver now e this) = Normal ())
  ∧ (∀ err, completed (deliver now e this) = Thrown err →
       this_after (deliver now e this) = this
       ∧ err = "TypeError"
       ∧ ∃ state, e = update_state state ∧ full_state_payload state = false).
Proof.
  intros Hlog.
  destruct (deliver_cases this now e entries Hlog) as [Hout Hcases].
  split; [exact Hout|].
  destruct Hcases
    as [[Hsame [Hok|(state & -> & Hshape & Hthrown)]]
       |[(c & -> & _ & _ & Hrun)|(offset & Hok & _)]].
  - split; [done|]. intros err. by rewrite Hok.
  - split; [cbn [well_formed]; by rewrite Hshape|].
    intros err. rewrite Hthrown. intros [= <-]. by eauto.
  - rewrite Hrun. cbn [completed]. split; [done|]. done.
  - split; [done|]. intros err. by rewrite Hok.
Qed.

Lemma deliver_exception_safe_witness :
  log_entries started_full = Some [snapshot 0 (full_state_of started_full)]
  ∧ completed (deliver 1700000000090 (update_state VNull) started_full)
    = Thrown "TypeError"
  ∧ this_after (deliver 1700000000090 (update_state VNull) started_full)
    = started_full.
Proof.
  assert (Hlog : log_entries started_full = Some [snapshot 0 (full_state_of started_full)])
    by (vm_compute; reflexivity).
  pose proof (deliver_exception_safe started_full 1700000000090 (update_state VNull)
                _ Hlog) as (_ & _ & Hthrown).
  assert (Hc : completed (deliver 1700000000090 (update_state VNull) started_full)
               = Thrown "TypeError") by reflexivity.
  split; [exact Hlog|]. split; [exact Hc|].
  exact (proj1 (Hthrown "TypeError" Hc)).
Defined.

(** X4: the payload of a recorded snapshot.  Whenever a reaction appends
    to the log, it appends one entry; in full-state mode its payload is the
    accumulated state of the instance right after the reaction (the objs,
    grippers and config received last), in delta mode it is the received
    update, wrapped under its key unless it is a full state. *)
Theorem recorded_payload
    (this : LogView) (now : Z) (e : event) (entries : list value) :
  log_entries this = Some entries →
  log_entries (react this (now, e)) = Some entries
  ∨ ∃ offset,
      log_entries (react this (now, e))
      = Some (entries
              ++ [snapshot offset
                    (if logFullState this
                     then full_state_of (react this (now, e))
                     else delta_payload e)]).
Proof.
  intros Hlog. unfold react. cbn [fst snd].
  destruct (deliver_cases this now e entries Hlog) as [_ Hcases].
  destruct Hcases as [[-> _]|[(c & -> & _ & _ & Hrun)|(offset & _ & Happ & _)]].
  - by left.
  - left. rewrite Hrun. cbn [this_after].
    apply data_log_entries. cbn [data]. by apply log_entries_data.
  - right. by exists offset.
Qed.

Lemma recorded_payload_witness :
  log_entries started_full = Some [snapshot 0 (full_state_of started_full)]
  ∧ log_entries (react started_full (1700000000080, update_grippers grippers_a))
    = Some [snapshot 0 (full_state_of started_full);
            snapshot 50 (VObj [("objs", VObj [("a", VNum 1)]);
                               ("grippers", grippers_a);
                               ("config", VObj [])])].
Proof.
  assert (Hlog : log_entries started_full = Some [snapshot 0 (full_state_of started_full)])
    by (vm_compute; reflexivity).
  split; [exact Hlog|].
  destruct (recorded_payload started_full 1700000000080 (update_grippers grippers_a)
              _ Hlog) as [Hsame|[offset Happ]].
  - vm_compute in Hsame. discriminate.
  - vm_compute. reflexivity.
Defined.

(** *** The log only grows *)

(** [addData] keeps the log array, whatever the key. *)
Lemma addData_keeps_log (key : string) (d : value) (this : LogView) :
  log_entries (this_after (addData key d this)) = log_entries this.
Proof.
  destruct (String.eqb_spec key "log") as [->|Hlog].
  - destruct this. by run_js.
  - destruct (String.eqb_spec key "__proto__") as [->|Hproto].
    + destruct this. by run_js.
    + rewrite addData_run by done. unfold log_entries, with_data. cbn.
      by rewrite lookup_insert_ne.
Qed.

Lemma perform_appends (this : LogView) (c : call) (entries : list value) :
  log_entries this = Some entries →
  ∃ more, log_entries (perform this c) = Some (entries ++ more)
    ∧ (length more ≤ 1)%nat
    ∧ Forall (λ entry, is_Some (timestamp entry)) more.
Proof.
  intros Hlog. destruct c as [now e|key d|endpoint]; cbn [perform].
  - unfold react. cbn [fst snd].
    destruct (deliver_cases this now e entries Hlog)
      as [_ [[-> _]|[(c & -> & _ & _ & Hrun)|(offset & _ & Happ & _)]]].
    + exists []. rewrite app_nil_r. split; [done|]. split; [cbn; lia|constructor].
    + exists []. rewrite app_nil_r, Hrun. cbn [this_after].
      split; [|split; [cbn; lia|constructor]].
      apply data_log_entries. cbn [data]. by apply log_entries_data.
    + eexists [_]. split; [exact Happ|]. split; [cbn; lia|].
      constructor; [by eexists|constructor].
  - exists []. rewrite app_nil_r, addData_keeps_log.
    split; [done|]. split; [cbn; lia|constructor].
  - exists []. rewrite app_nil_r. split; [|split; [cbn; lia|constructor]].
    destruct this. by run_js.
Qed.

(** X5: the log is append-only.  Whatever events arrive and whatever is
    added or sent, the entries an instance holds stay where they are, in
    front of the log; no more entries are appended than calls are made,
    and every appended entry is a pair that starts with a numeric
    timestamp. *)
Theorem log_append_only (cs : list call) : ∀ (this : LogView) (entries : list value),
  log_entries this = Some entries →
  ∃ more, log_entries (perform_all this cs) = Some (entries ++ more)
    ∧ (length more ≤ length cs)%nat
    ∧ Forall (λ entry, is_Some (timestamp entry)) more.
Proof.
  induction cs as [|c cs IH]; intros this entries Hlog.
  - exists []. rewrite app_nil_r. split; [done|]. split; [cbn; lia|constructor].
  - destruct (perform_appends this c entries Hlog) as (more1 & Hlog1 & Hlen1 & Hts1).
    destruct (IH (perform this c) _ Hlog1) as (more2 & Hlog2 & Hlen2 & Hts2).
    exists (more1 ++ more2). rewrite app_assoc. split; [exact Hlog2|].
    split; [rewrite length_app; cbn [length]; lia|].
    by apply Forall_app.
Qed.

Lemma log_append_only_witness :
  ∃ more,
    log_entries (perform_all started_full
                   [arrives 1700000000080 (update_grippers grippers_a);
                    calls_addData "participant" (VNum 7);
                    arrives 1700000000090 (update_state VNull)])
    = Some ([snapshot 0 (full_state_of started_full)] ++ more)
    ∧ (length more ≤ 3)%nat
    ∧ Forall (λ entry, is_Some (timestamp entry)) more.
Proof.
  apply (log_append_only
           [arrives 1700000000080 (update_grippers grippers_a);
            calls_addData "participant" (VNum 7);
            arrives 1700000000090 (update_state VNull)]
           started_full [snapshot 0 (full_state_of started_full)]).
  vm_compute. reflexivity.
Defined.

(** *** Timestamps *)

Lemma truthy_clock_set (this : LogView) (t0 : Z) :
  clock_set_at t0 this → truthy_startTime this = Some t0.
Proof.
  intros [Hst Ht0]. unfold truthy_startTime. rewrite Hst.
  by rewrite (proj2 (Z.eqb_neq t0 0) Ht0).
Qed.

Lemma truthy_clock_unset (this : LogView) :
  clock_unset this → truthy_startTime this = None.
Proof. unfold clock_unset, truthy_startTime. by intros ->. Qed.

Lemma sorted_snoc (tss : list Z) (t : Z) :
  StronglySorted Z.le tss → Forall (λ t', t' ≤ t) tss → StronglySorted Z.le (tss ++ [t]).
Proof.
  intros Hsorted Hbound. apply StronglySorted_app_2; [|done|repeat constructor].
  intros x1 x2 Hx1 ->%list_elem_of_singleton.
  by apply (proj1 (Forall_forall _ _) Hbound).
Qed.

(** One reaction keeps the timestamps of the log in order, when time does
    not run backwards: [prev] is the time of the reaction before. *)
Lemma react_sorted (this : LogView) (now prev : Z) (e : event)
    (entries : list value) (tss : list Z) :
  log_entries this = Some entries →
  Forall2 (λ entry t, timestamp entry = Some t) entries tss →
  StronglySorted Z.le tss →
  (clock_unset this ∧ Forall (λ t, t = -1) tss)
  ∨ (∃ t0, clock_set_at t0 this ∧ t0 ≤ prev ∧ Forall (λ t, -1 ≤ t ≤ prev - t0) tss) →
  now ≠ 0 →
  prev ≤ now →
  ∃ entries' tss',
    log_entries (react this (now, e)) = Some entries'
    ∧ Forall2 (λ entry t, timestamp entry = Some t) entries' tss'
    ∧ StronglySorted Z.le tss'
    ∧ ((clock_unset (react this (now, e)) ∧ Forall (λ t, t = -1) tss')
       ∨ (∃ t0, clock_set_at t0 (react this (now, e)) ∧ t0 ≤ now
            ∧ Forall (λ t, -1 ≤ t ≤ now - t0) tss')).
Proof.
  intros Hlog Hts Hsorted Hclock Hnow Hprev.
  assert (Hlater : (clock_unset this ∧ Forall (λ t, t = -1) tss)
                   ∨ (∃ t0, clock_set_at t0 this ∧ t0 ≤ now
                        ∧ Forall (λ t, -1 ≤ t ≤ now - t0) tss)).
  { destruct Hclock as [?|(t0 & Hset & Ht0 & Hbound)]; [by left|right].
    exists t0. split; [done|]. split; [lia|].
    eapply Forall_impl; [exact Hbound|]. cbn. intros t ?. lia. }
  unfold react. cbn [fst snd].
  destruct (deliver_cases this now e entries Hlog) as [_ Hcases].
  destruct Hcases
    as [[-> _]|[(c & -> & _ & _ & Hrun)|(offset & _ & Happ & _ & Hoffset)]].
  - by exists entries, tss.
  - rewrite Hrun. cbn [this_after]. exists entries, tss.
    split; [apply data_log_entries; cbn [data]; by apply log_entries_data|].
    split; [done|]. split; [done|].
    destruct Hlater as [[Hunset Hall]|(t0 & [Hst Ht0] & Hle & Hbound)].
    + left. split; [exact Hunset | done].
    + right. exists t0. by repeat split.
  - eexists _, (tss ++ [offset]). split; [exact Happ|].
    split; [apply Forall2_app; [done|by repeat constructor]|].
    destruct Hoffset
      as [(t0' & Htruthy & -> & Hst)
         |[(state & -> & Htruthy & -> & Hst)|(c & -> & Htruthy & _ & -> & Hst)]].
    + destruct Hlater as [[Hunset _]|(t0 & Hset & Hle & Hbound)].
      { rewrite (truthy_clock_unset _ Hunset) in Htruthy. discriminate. }
      rewrite (truthy_clock_set _ _ Hset) in Htruthy. injection Htruthy as <-.
      split.
      * apply sorted_snoc; [done|]. eapply Forall_impl; [exact Hbound|]. cbn. lia.
      * right. exists t0. split; [destruct Hset; split; congruence|]. split; [done|].
        apply Forall_app. split; [done|]. repeat constructor; lia.
    + destruct Hlater as [[Hunset Hall]|(t0 & Hset & _)].
      2: { rewrite (truthy_clock_set _ _ Hset) in Htruthy. discriminate. }
      split.
      * apply sorted_snoc; [done|]. eapply Forall_impl; [exact Hall|]. cbn. lia.
      * right. exists now. split; [by split|]. split; [lia|].
        apply Forall_app. split; [|repeat constructor; lia].
        eapply Forall_impl; [exact Hall|]. cbn. lia.
    + destruct Hlater as [[Hunset Hall]|(t0 & Hset & _)].
      2: { rewrite (truthy_clock_set _ _ Hset) in Htruthy. discriminate. }
      split.
      * apply sorted_snoc; [done|]. eapply Forall_impl; [exact Hall|]. cbn. lia.
      * left. split; [unfold clock_unset in *; congruence|].
        apply Forall_app. split; [done|]. by repeat constructor.
Qed.

Lemma process_sorted (evs : list (Z * event)) :
  ∀ (this : LogView) (prev : Z) (entries : list value) (tss : list Z),
  log_entries this = Some entries →
  Forall2 (λ entry t, timestamp entry = Some t) entries tss →
  StronglySorted Z.le tss →
  (clock_unset this ∧ Forall (λ t, t = -1) tss)
  ∨ (∃ t0, clock_set_at t0 this ∧ t0 ≤ prev ∧ Forall (λ t, -1 ≤ t ≤ prev - t0) tss) →
  Forall (λ ev, ev.1 ≠ 0) evs →
  StronglySorted Z.le (prev :: evs.*1) →
  ∃ entries' tss',
    log_entries (process this evs) = Some entries'
    ∧ Forall2 (λ entry t, timestamp entry = Some t) entries' tss'
    ∧ StronglySorted Z.le tss'
    ∧ Forall (λ t, -1 ≤ t) tss'.
Proof.
  induction evs as [|[now e] evs IH];
    intros this prev entries tss Hlog Hts Hsorted Hclock Hnz Htimes.
  - exists entries, tss. split; [done|]. split; [done|]. split; [done|].
    destruct Hclock as [[_ Hall]|(t0 & _ & _ & Hbound)];
      (eapply Forall_impl; [eassumption|]); cbn; lia.
  - apply Forall_cons in Hnz as [Hnow Hnz]. cbn [fst] in Hnow.
    cbn [fmap list_fmap fst] in Htimes.
    apply StronglySorted_inv in Htimes as [Htimes Hprev].
    apply Forall_cons in Hprev as [Hprev _].
    destruct (react_sorted this now prev e entries tss Hlog Hts Hsorted Hclock Hnow Hprev)
      as (entries1 & tss1 & Hlog1 & Hts1 & Hsorted1 & Hclock1).
    change (process this ((now, e) :: evs)) with (process (react this (now, e)) evs).
    by apply (IH (react this (now, e)) now entries1 tss1).
Qed.

(** X6: timestamps are in order.  When a fresh logger, in either mode,
    processes events whose arrival times do not decrease, the timestamps
    of its log do not decrease either, and none is below the sentinel
    [-1]; this holds for every payload. *)
Theorem timestamps_sorted (fullState : bool) (evs : list (Z * event)) :
  Forall (λ ev, ev.1 ≠ 0) evs →
  StronglySorted Z.le evs.*1 →
  ∃ entries tss,
    log_entries (process (new_LogView fullState) evs) = Some entries
    ∧ Forall2 (λ entry t, timestamp entry = Some t) entries tss
    ∧ StronglySorted Z.le tss
    ∧ Forall (λ t, -1 ≤ t) tss.
Proof.
  intros Hnz Htimes.
  destruct evs as [|[now e] evs].
  - exists [], []. by repeat split; constructor.
  - apply (process_sorted ((now, e) :: evs) (new_LogView fullState) now [] []);
      [done|constructor|constructor|by left|done|].
    cbn [fmap list_fmap fst] in *. constructor; [done|].
    constructor; [lia|]. by apply StronglySorted_inv in Htimes as [_ ?].
Qed.

Lemma timestamps_sorted_witness :
  ∃ entries tss,
    log_entries (process (new_LogView false) session_a) = Some entries
    ∧ Forall2 (λ entry t, timestamp entry = Some t) entries tss
    ∧ StronglySorted Z.le tss
    ∧ Forall (λ t, -1 ≤ t) tss.
Proof.
  apply (timestamps_sorted false session_a).
  - repeat constructor; cbn; lia.
  - repeat constructor; cbn; lia.
Defined.

(** *** Delta mode *)

Lemma perform_delta_frame (this : LogView) (c : call) :
  logFullState this = false →
  logFullState (perform this c) = false
  ∧ currentObjs (perform this c) = currentObjs this
  ∧ currentGrippers (perform this c) = currentGrippers this
  ∧ currentConfig (perform this c) = currentConfig this.
Proof.
  intros Hfull. destruct this as [d full st co cg cc]. cbn in Hfull. subst full.
  destruct c as [now e|key v|endpoint]; cbn [perform].
  - destruct e as [state|v|v|v];
      [case_clock st; [case_payload state| destruct state |case_payload state]
      | case_clock st ..]; run_js.
    all: by destruct (d !! "log") as [[| | | | |entries|]|].
  - unfold addData.
    destruct (String.eqb key "log"); [|destruct (String.eqb key "__proto__")];
      by run_js.
  - by run_js.
Qed.

(** X7: in delta mode the three accumulated substates are never used:
    whatever events arrive and whatever is added or sent, on any instance,
    they stay as they are, and the mode stays delta. *)
Theorem delta_mode_keeps_substates (cs : list call) : ∀ this : LogView,
  logFullState this = false →
  logFullState (perform_all this cs) = false
  ∧ currentObjs (perform_all this cs) = currentObjs this
  ∧ currentGrippers (perform_all this cs) = currentGrippers this
  ∧ currentConfig (perform_all this cs) = currentConfig this.
Proof.
  induction cs as [|c cs IH]; intros this Hfull; [done|].
  destruct (perform_delta_frame this c Hfull) as (Hfull1 & Hobjs & Hgrippers & Hconfig).
  destruct (IH (perform this c) Hfull1) as (? & ? & ? & ?).
  change (perform_all this (c :: cs)) with (perform_all (perform this c) cs).
  repeat split; congruence.
Qed.

Lemma delta_mode_keeps_substates_witness :
  currentObjs (perform_all (new_LogView false)
                 [arrives 1700000000030 (update_state state_a);
                  arrives 1700000000080 (update_grippers grippers_a);
                  calls_addData "participant" (VNum 7)])
  = VObj [].
Proof.
  pose proof (delta_mode_keeps_substates
                [arrives 1700000000030 (update_state state_a);
                 arrives 1700000000080 (update_grippers grippers_a);
                 calls_addData "participant" (VNum 7)]
                (new_LogView false) eq_refl) as (_ & Hobjs & _).
  exact Hobjs.
Defined.

(** X8: in delta mode, once the clock is set, every event of every kind
    is recorded, exactly once and as received: the reaction returns
    normally, appends [[now - t0, payload]] with the update wrapped under
    its key (a full state unwrapped), and changes nothing else.  The
    full-state payload is not looked into: [null] is recorded as well. *)
Theorem delta_records_every_event
    (this : LogView) (t0 now : Z) (e : event) (entries : list value) :
  logFullState this = false →
  clock_set_at t0 this →
  log_entries this = Some entries →
  deliver now e this
  = Run (Normal ())
        (with_data
           (<["log" := VArr (entries ++ [snapshot (now - t0) (delta_payload e)])]>
              (data this)) this) [].
Proof.
  intros Hfull [Hst Ht0] Hlog%log_entries_data.
  destruct this as [d full st co cg cc]. cbn in Hfull, Hst, Hlog. subst full st.
  pose proof (proj2 (Z.eqb_neq t0 0) Ht0) as Hfalsy.
  destruct e; by run_js.
Qed.

Lemma delta_records_every_event_witness :
  log_entries (react started_delta (1700000000090, update_state VNull))
  = Some [snapshot 0 state_a; snapshot 60 VNull].
Proof.
  assert (Hset : clock_set_at 1700000000030 started_delta)
    by (split; [reflexivity | lia]).
  assert (Hlog : log_entries started_delta = Some [snapshot 0 state_a])
    by (vm_compute; reflexivity).
  unfold react. cbn [fst snd].
  rewrite (delta_records_every_event started_delta 1700000000030 1700000000090
             (update_state VNull) [snapshot 0 state_a] eq_refl Hset Hlog).
  apply log_entries_pushed.
Defined.

(** *** Adding data between events *)

(** X9: auxiliary data can be added at any moment: on an instance that
    holds a log array, adding an entry after an event reaction gives the
    same instance as adding it before, for every key, event and payload. *)
Theorem addData_commutes_with_events
    (key : string) (d : value) (this : LogView) (now : Z) (e : event)
    (entries : list value) :
  log_entries this = Some entries →
  this_after (addData key d (react this (now, e)))
  = react (this_after (addData key d this)) (now, e).
Proof.
  intros Hlog%log_entries_data.
  destruct (String.eqb_spec key "log") as [->|Hkey].
  { assert (Hnoop : ∀ this', this_after (addData "log" d this') = this')
      by (intros []; by run_js).
    by rewrite !Hnoop. }
  destruct (String.eqb_spec key "__proto__") as [->|Hproto].
  { assert (Hnoop : ∀ this', this_after (addData "__proto__" d this') = this')
      by (intros []; by run_js).
    by rewrite !Hnoop. }
  rewrite !addData_run by done. cbn [this_after]. unfold with_data.
  destruct this as [dt full st co cg cc]. cbn in Hlog.
  assert (Hlog' : <[key := d]> dt !! "log" = Some (VArr entries))
    by by rewrite lookup_insert_ne.
  destruct e as [state|v|v|v];
    [case_clock st; [case_payload state| destruct state |case_payload state]
    | case_clock st ..];
    destruct full; run_js.
  all: first [reflexivity | f_equal; by apply insert_insert_ne].
Qed.

Lemma addData_commutes_with_events_witness :
  this_after (addData "participant" (VNum 7)
                (react started_full (1700000000080, update_grippers grippers_a)))
  = react (this_after (addData "participant" (VNum 7) started_full))
          (1700000000080, update_grippers grippers_a).
Proof.
  apply (addData_commutes_with_events "participant" (VNum 7) started_full
           1700000000080 (update_grippers grippers_a)
           [snapshot 0 (full_state_of started_full)]).
  vm_compute. reflexivity.
Defined.

(** *** Uploading *)



(** *** Full-state events *)

(** X11: once the clock is set, the full-state handler in full-state mode
    no longer tests for emptiness: every object payload is recorded, at
    [now - t0], and both accumulated objs and grippers are replaced by the
    payload's properties, by [undefined] where the payload has none; the
    config is kept. *)
Theorem full_state_after_start
    (this : LogView) (t0 now : Z) (props : list (string * value))
    (entries : list value) :
  logFullState this = true →
  clock_set_at t0 this →
  log_entries this = Some entries →
  deliver now (update_state (VObj props)) this
  = Run (Normal ())
        (mkLogView
           (<["log" := VArr (entries
               ++ [snapshot (now - t0)
                     (VObj [("objs", default VUndefined (own_property "objs" props));
                            ("grippers", default VUndefined (own_property "grippers" props));
                            ("config", currentConfig this)])])]>
              (data this))
           true (Some t0)
           (default VUndefined (own_property "objs" props))
           (default VUndefined (own_property "grippers" props))
           (currentConfig this)) [].
Proof.
  intros Hfull [Hst Ht0] Hlog%log_entries_data.
  destruct this as [d full st co cg cc]. cbn in Hfull, Hst, Hlog. subst full st.
  pose proof (proj2 (Z.eqb_neq t0 0) Ht0) as Hfalsy.
  by run_js.
Qed.

Lemma full_state_after_start_witness :
  log_entries (react started_full (1700000000090, update_state state_empty))
  = Some [snapshot 0 (full_state_of started_full);
          snapshot 60 (VObj [("objs", VObj []); ("grippers", VObj []);
                             ("config", VObj [])])]
  ∧ currentObjs (react started_full (1700000000090, update_state (VObj [])))
    = VUndefined.
Proof.
  assert (Hset : clock_set_at 1700000000030 started_full)
    by (split; [reflexivity | lia]).
  assert (Hlog : log_entries started_full = Some [snapshot 0 (full_state_of started_full)])
    by (vm_compute; reflexivity).
  unfold react. cbn [fst snd]. split.
  - unfold state_empty.
    rewrite (full_state_after_start started_full 1700000000030 1700000000090
               _ _ eq_refl Hset Hlog).
    apply log_entries_pushed.
  - by rewrite (full_state_after_start started_full 1700000000030 1700000000090
                  [] _ eq_refl Hset Hlog).
Defined.

(** X12: before the start, the emptiness test reads [grippers] only when
    [objs] has no keys.  A payload without a [grippers] property therefore
    starts the session when its [objs] mapping is not empty (full-state
    mode then holds [undefined] for the grippers), but ends the handler
    with a [TypeError], the instance unchanged, when [objs] is empty. *)
Theorem full_state_without_grippers
    (this : LogView) (now : Z) (props objs : list (string * value))
    (entries : list value) :
  clock_unset this →
  log_entries this = Some entries →
  own_property "objs" props = Some (VObj objs) →
  own_property "grippers" props = None →
  (objs = [] →
   deliver now (update_state (VObj props)) this = Run (Thrown "TypeError") this [])
  ∧ (objs ≠ [] →
     completed (deliver now (update_state (VObj props)) this) = Normal ()
     ∧ startTime (react this (now, update_state (VObj props))) = Some now
     ∧ log_entries (react this (now, update_state (VObj props)))
       = Some (entries
               ++ [snapshot 0
                     (if logFullState this
                      then VObj [("objs", VObj objs);
                                 ("grippers", VUndefined);
                                 ("config", currentConfig this)]
                      else VObj props)])).
Proof.
  unfold clock_unset. intros Hst Hlog%log_entries_data Hobjs Hgrippers.
  destruct this as [d full st co cg cc]. cbn in Hst, Hlog. subst st.
  split.
  - intros ->. by run_js.
  - intros Hne. destruct objs as [|p objs]; [done|].
    destruct full; run_js.
    all: split; [reflexivity|]; split; [reflexivity|]; apply log_entries_pushed.
Qed.

Lemma full_state_without_grippers_witness :
  deliver 1700000000000 (update_state (VObj [("objs", VObj [])])) (new_LogView true)
  = Run (Thrown "TypeError") (new_LogView true) []
  ∧ startTime (react (new_LogView true)
                 (1700000000000, update_state (VObj [("objs", VObj [("a", VNum 1)])])))
    = Some 1700000000000.
Proof.
  split.
  - by apply (full_state_without_grippers (new_LogView true) 1700000000000
                [("objs", VObj [])] [] []).
  - by apply (full_state_without_grippers (new_LogView true) 1700000000000
                [("objs", VObj [("a", VNum 1)])] [("a", VNum 1)] []).
Defined.

(** X13: the emptiness test counts keys, it does not ask for mappings: a
    full-state event arriving before the start is ignored, the instance
    unchanged, whenever [Object.keys] finds no key in [objs] and none in
    [grippers], so also when they are numbers, booleans, empty strings or
    empty arrays.  A start time of [0] counts as no start here. *)
Theorem keyless_full_state_ignored
    (this : LogView) (now : Z) (props : list (string * value)) (objs grippers : value) :
  truthy_startTime this = None →
  own_property "objs" props = Some objs →
  own_property "grippers" props = Some grippers →
  no_keys objs = true →
  no_keys grippers = true →
  deliver now (update_state (VObj props)) this = Run (Normal ()) this [].
Proof.
  intros Htruthy Hobjs Hgrippers Ho Hg.
  destruct this as [d full st co cg cc].
  unfold truthy_startTime in Htruthy. cbn [startTime] in Htruthy.
  case_clock st; try discriminate.
  all: case_keys objs; try discriminate; case_keys grippers; try discriminate.
  all: by run_js.
Qed.

Lemma keyless_full_state_ignored_witness :
  deliver 1700000000000
    (update_state (VObj [("objs", VArr []); ("grippers", VNum 0)])) (new_LogView false)
  = Run (Normal ()) (new_LogView false) [].
Proof.
  by apply (keyless_full_state_ignored (new_LogView false) 1700000000000
              [("objs", VArr []); ("grippers", VNum 0)] (VArr []) (VNum 0)).
Defined.

(** *** The start time [0] *)

(** X14: the handlers test the start time for truthiness, so a start time
    of [0] is no start: on an instance whose start time is [0] every
    reaction completes, emits and changes the log and the substates exactly
    as on the same instance with an undefined start time; the start time
    itself stays [0] where it would stay undefined. *)
Theorem zero_start_time_is_unset
    (this : LogView) (now : Z) (e : event) (entries : list value) :
  startTime this = Some 0 →
  log_entries this = Some entries →
  completed (deliver now e this) = completed (deliver now e (with_startTime None this))
  ∧ emitted (deliver now e this) = emitted (deliver now e (with_startTime None this))
  ∧ with_startTime None (react this (now, e))
    = with_startTime None (react (with_startTime None this) (now, e))
  ∧ startTime (react this (now, e))
    = match startTime (react (with_startTime None this) (now, e)) with
      | Some t => Some t
      | None => Some 0
      end.
Proof.
  intros Hst Hlog%log_entries_data.
  destruct this as [d full st co cg cc]. cbn in Hst, Hlog. subst st.
  unfold with_startTime.
  pose proof (Z.eqb_refl 0) as Hfalsy.
  destruct e as [state|v|v|v]; [case_payload state|..]; destruct full; by run_js.
Qed.

Lemma zero_start_time_is_unset_witness :
  startTime (react (new_LogView true) (0, update_state state_a)) = Some 0
  ∧ startTime (react (react (new_LogView true) (0, update_state state_a))
                 (50, update_grippers grippers_a))
    = Some 0
  ∧ log_entries
      (process (new_LogView true)
         [(0, update_state state_a);
          (50, update_grippers grippers_a);
          (60, update_state state_a)])
    = Some [snapshot 0 (full_state_of started_full);
            snapshot 0 (full_state_of started_full)].
Proof.
  assert (Hst : startTime (react (new_LogView true) (0, update_state state_a)) = Some 0)
    by reflexivity.
  assert (Hlog : log_entries (react (new_LogView true) (0, update_state state_a))
                 = Some [snapshot 0 (full_state_of started_full)])
    by (vm_compute; reflexivity).
  pose proof (zero_start_time_is_unset _ 50 (update_grippers grippers_a) _ Hst Hlog)
    as (_ & _ & _ & Hstill).
  split; [exact Hst|]. split; [exact Hstill|]. vm_compute. reflexivity.
Defined.

(** *** Config updates before the start *)

(** X15: in delta mode every config update that arrives before the start
    is recorded, not only the first: a run of them appends one entry
    [[-1, {config: payload}]] each, in order, and leaves the clock
    unset. *)
Theorem delta_records_each_early_config (configs : list (Z * value)) :
  ∀ (this : LogView) (entries : list value),
  logFullState this = false →
  clock_unset this →
  log_entries this = Some entries →
  log_entries (process this (prod_map id update_config <$> configs))
  = Some (entries
          ++ ((λ tc, snapshot (-1) (VObj [("config", tc.2)])) <$> configs))
  ∧ clock_unset (process this (prod_map id update_config <$> configs)).
Proof.
  induction configs as [|[now c] configs IH]; intros this entries Hfull Hunset Hlog.
  - cbn. by rewrite app_nil_r.
  - cbn [fmap list_fmap prod_map fst snd id].
    change (process this ((now, update_config c) :: ?evs))
      with (process (react this (now, update_config c)) evs).
    assert (Hstep : logFullState (react this (now, update_config c)) = false
                    ∧ clock_unset (react this (now, update_config c))
                    ∧ log_entries (react this (now, update_config c))
                      = Some (entries ++ [snapshot (-1) (VObj [("config", c)])])).
    { apply log_entries_data in Hlog. unfold clock_unset in *.
      destruct this as [d full st co cg cc]. cbn in Hfull, Hunset, Hlog. subst full st.
      run_js. split; [done|]. split; [done|]. apply log_entries_pushed. }
    destruct Hstep as (Hfull1 & Hunset1 & Hlog1).
    destruct (IH _ _ Hfull1 Hunset1 Hlog1) as [Hlog' Hunset'].
    split; [|exact Hunset'].
    rewrite Hlog'. by rewrite <- app_assoc.
Qed.

Lemma delta_records_each_early_config_witness :
  log_entries (process (new_LogView false)
                 [(1700000000010, update_config config_a);
                  (1700000000020, update_config (VObj []))])
  = Some [snapshot (-1) (VObj [("config", config_a)]);
          snapshot (-1) (VObj [("config", VObj [])])].
Proof.
  by apply (delta_records_each_early_config
              [(1700000000010, config_a); (1700000000020, VObj [])]
              (new_LogView false) []).
Defined.

(** X16: in full-state mode config updates that arrive before the start
    are not recorded and only the last one is kept: after a run of them
    the instance differs from the one before in nothing but holding the
    config that came last. *)
Theorem full_state_keeps_last_early_config
    (configs : list (Z * value)) (now : Z) (c : value) (this : LogView) :
  logFullState this = true →
  clock_unset this →
  process this (prod_map id update_config <$> (configs ++ [(now, c)]))
  = mkLogView (data this) true None (currentObjs this) (currentGrippers this) c.
Proof.
  revert this. induction configs as [|[now' c'] configs IH]; intros this Hfull Hunset.
  - unfold clock_unset in Hunset.
    destruct this as [d full st co cg cc]. cbn in Hfull, Hunset. subst full st.
    cbn [app fmap list_fmap prod_map fst snd id process fold_left]. by run_js.
  - cbn [app fmap list_fmap prod_map fst snd id].
    change (process this ((now', update_config c') :: ?evs))
      with (process (react this (now', update_config c')) evs).
    assert (Hstep : react this (now', update_config c')
                    = mkLogView (data this) true None
                                (currentObjs this) (currentGrippers this) c').
    { unfold clock_unset in Hunset.
      destruct this as [d full st co cg cc]. cbn in Hfull, Hunset. subst full st.
      by run_js. }
    rewrite Hstep. by rewrite IH.
Qed.

Lemma full_state_keeps_last_early_config_witness :
  currentConfig (process (new_LogView true)
                   [(1700000000010, update_config (VObj []));
                    (1700000000020, update_config config_a)])
  = config_a
  ∧ log_entries (process (new_LogView true)
                   [(1700000000010, update_config (VObj []));
                    (1700000000020, update_config config_a)])
    = Some [].
Proof.
  pose proof (full_state_keeps_last_early_config
                [(1700000000010, VObj [])] 1700000000020 config_a (new_LogView true)
                eq_refl eq_refl) as Hlast.
  cbn [app fmap list_fmap prod_map fst snd id] in Hlast.
  rewrite Hlast. by split.
Defined.

(** *** The mode *)

(** X17: the logging mode is fixed when the instance is built: no event,
    no [addData], no [sendData] and no [clear] changes it on an instance
    that holds a log array. *)
Theorem mode_fixed (cs : list call) : ∀ (this : LogView) (entries : list value),
  log_entries this = Some entries →
  logFullState (perform_all this cs) = logFullState this
  ∧ logFullState (this_after (clear (perform_all this cs))) = logFullState this.
Proof.
  assert (Hall : ∀ (this : LogView) (entries : list value),
             log_entries this = Some entries →
             logFullState (perform_all this cs) = logFullState this).
  { induction cs as [|c cs IH]; intros this entries Hlog; [done|].
    change (perform_all this (c :: cs)) with (perform_all (perform this c) cs).
    destruct (perform_appends this c entries Hlog) as (more & Hlog1 & _).
    rewrite (IH _ _ Hlog1).
    destruct c as [now e|key d|endpoint]; cbn [perform].
    - by destruct (react_keeps this now e entries Hlog) as [? _].
    - unfold addData. destruct this.
      destruct (String.eqb key "log"); [|destruct (String.eqb key "__proto__")];
        by run_js.
    - destruct this. by run_js. }
  intros this entries Hlog. split; [by eapply Hall|].
  rewrite clear_run. cbn [this_after logFullState new_LogView]. by eapply Hall.
Qed.

Lemma mode_fixed_witness :
  logFullState (this_after (clear (perform_all started_delta
                  [arrives 1700000000080 (update_config config_a);
                   calls_sendData "/save_log"])))
  = false.
Proof.
  pose proof (mode_fixed
                [arrives 1700000000080 (update_config config_a);
                 calls_sendData "/save_log"]
                started_delta [snapshot 0 state_a]) as [_ Hclear];
    [vm_compute; reflexivity|].
  exact Hclear.
Defined.
